(** * The source-type registry and [Source.create]  (js/source/source.js)

    The module keeps one private object, [sourceTypes], that maps a type
    name to the factory of that source type, and exports three functions:
    [create], [getType] and [setType].

    Modelling choices.
    - JavaScript values are the inductive [Value]; functions are named by
      a code pointer [Fn] and run by the engine ([run] of [Engine]), so a
      factory is compared by reference the way [===] compares it.
    - [sourceTypes] is an object literal: its own properties are a finite
      map, and what it does not own it inherits from its prototype, which
      is [Object.prototype] until an assignment to [__proto__] replaces
      it.  Reads and writes that reach a replacement prototype may run
      code of that prototype (a getter, a setter); the engine runs it.
    - Objects built by factories live in a heap of property tables; an
      instance is a location, so reference identity is location
      equality.  The table of an object lists what a property read
      finds on it.  A function is an object too: one on which members
      have been defined is a location with code ([object_code]).
    - A call either returns or throws, and both leave a world behind. *)

From Stdlib Require Import ZArith String List.
From stdpp Require Import base option strings gmap pretty.

Open Scope string_scope.

(** ** Values *)

(** Code pointers.  The five built-in factories are the [create] exports
    of the source modules required at the top of source.js; [Custom]
    names third-party functions and [Native] the built-in functions of
    the language. *)
Inductive Fn : Type :=
  | VectorTileSource_create
  | RasterTileSource_create
  | GeoJSONSource_create
  | VideoSource_create
  | ImageSource_create
  | Custom (n : nat)
  | Native (name : string).

Definition loc := positive.

Inductive Value : Type :=
  | VUndefined
  | VNull
  | VBool (b : bool)
  | VNum (z : Z)
  | VStr (s : string)
  | VObj (l : loc)
  | VFun (f : Fn)
  | VBound (target : Value) (this : Value)
  | VObjectPrototype.

Inductive TypeErrorKind : Type :=
  | NotAFunction
  | MemberOfNullish
  | ReadOnlyProperty.

Inductive Exn : Type :=
  | TypeError (k : TypeErrorKind)
  | Error (message : string)
  | Thrown (v : Value).

(** ** The world: the registry object and the heap *)

(** [sourceTypes]: own properties and the [[Prototype]] slot. *)
Record Registry : Type := mkRegistry {
  own : gmap string Value;
  proto : Value
}.

Record World : Type := mkWorld {
  sourceTypes : Registry;
  heap : gmap loc (gmap string Value)
}.

Inductive Result (A : Type) : Type :=
  | Ok (a : A) (w : World)
  | Throw (e : Exn) (w : World).
Arguments Ok {A} a w.
Arguments Throw {A} e w.

Definition bind_result {A B : Type} (r : Result A) (k : A -> World -> Result B)
  : Result B :=
  match r with
  | Ok a w => k a w
  | Throw e w => Throw e w
  end.

(** Lifts a read that may throw into a step that leaves the world as it is. *)
Definition lift_read {A : Type} (r : Exn + A) (w : World) : Result A :=
  match r with
  | inl e => Throw e w
  | inr a => Ok a w
  end.

(** The receiver of a call.  [sourceTypes] is private to the module: a
    factory called as [sourceTypes[t](...)] has it as receiver, and
    reaches it through the world it is run in. *)
Inductive Receiver : Type :=
  | ThisValue (v : Value)
  | ThisSourceTypes.

(** What the language and the third-party code contribute. *)
Record Engine : Type := mkEngine {
  (** body of a function: callee, receiver, arguments *)
  run : Fn -> Receiver -> list Value -> World -> Result Value;
  (** [sourceTypes[name]] when the read reaches a replacement prototype:
      the prototype, the name; a getter found there runs with
      [sourceTypes] as receiver *)
  chain_get : Value -> string -> World -> Result Value;
  (** [sourceTypes[name] = v] when [sourceTypes] does not own [name] and
      inherits from a replacement prototype: [None] when nothing on the
      chain stands in the way and the property is defined on
      [sourceTypes] itself, otherwise what the assignment does instead
      (a read-only inherited property makes it throw, an inherited
      setter runs with [sourceTypes] as receiver) *)
  chain_put : Value -> string -> Value -> World -> option (Result unit);
  (** string conversion of an object or a function, which runs its
      [toString] or [valueOf] *)
  object_to_string : Value -> World -> Result string;
  (** string conversion of a number outside the safe integers *)
  number_to_string : Z -> string;
  (** the code of a heap object that is a function: a function on which
      members have been defined is such an object *)
  object_code : loc -> option Fn
}.

(** ** Language primitives *)

Definition truthy (v : Value) : bool :=
  match v with
  | VUndefined | VNull => false
  | VBool b => b
  | VNum z => negb (z =? 0)%Z
  | VStr s => negb (String.eqb s "")
  | _ => true
  end.

Definition is_object (v : Value) : bool :=
  match v with
  | VObj _ | VFun _ | VBound _ _ | VObjectPrototype => true
  | _ => false
  end.

Definition is_callable (E : Engine) (v : Value) : bool :=
  match v with
  | VFun _ | VBound _ _ => true
  | VObj l => bool_decide (is_Some (object_code E l))
  | _ => false
  end.

(** [a !== b] where [b] is a string. *)
Definition strict_neq_string (a : Value) (b : string) : bool :=
  match a with
  | VStr s => negb (String.eqb s b)
  | _ => true
  end.

(** The integers a number holds exactly and prints in full. *)
Definition safe_integer (z : Z) : bool :=
  ((- 9007199254740992 <=? z) && (z <=? 9007199254740992))%Z.

(** String conversion, as [+] with a string operand and a property key
    apply it.  That of an object or a function runs code. *)
Definition to_string (E : Engine) (v : Value) (w : World) : Result string :=
  match v with
  | VUndefined => Ok "undefined" w
  | VNull => Ok "null" w
  | VBool true => Ok "true" w
  | VBool false => Ok "false" w
  | VNum z => Ok (if safe_integer z then pretty z else number_to_string E z) w
  | VStr s => Ok s w
  | VObj _ | VFun _ | VBound _ _ | VObjectPrototype => object_to_string E v w
  end.

(** [o.name] for the names this module reads: [type], [id] and the
    lifecycle names.  Only heap objects carry such members: a function
    on which one has been defined is a heap object with code
    ([object_code]), while [VFun] and [VBound] stand for functions on
    which none has been defined, and the primitives inherit none. *)
Definition get_member (w : World) (o : Value) (name : string) : Exn + Value :=
  match o with
  | VUndefined | VNull => inl (TypeError MemberOfNullish)
  | VObj l =>
      match heap w !! l with
      | Some props => inr (default VUndefined (props !! name))
      | None => inr VUndefined
      end
  | _ => inr VUndefined
  end.

(** [o[name] = v] on a heap object. *)
Definition set_member (w : World) (l : loc) (name : string) (v : Value) : World :=
  mkWorld (sourceTypes w)
          (<[l := <[name := v]> (default ∅ (heap w !! l))]> (heap w)).

(** A call [callee.call(this, ...args)].  A bound function ignores the
    receiver of the call and runs its target with the bound one. *)
Fixpoint call_value (E : Engine) (callee : Value) (this : Receiver)
         (args : list Value) (w : World) : Result Value :=
  match callee with
  | VFun f => run E f this args w
  | VBound target bound_this =>
      call_value E target (ThisValue bound_this) args w
  | VObj l =>
      match object_code E l with
      | Some f => run E f this args w
      | None => Throw (TypeError NotAFunction) w
      end
  | _ => Throw (TypeError NotAFunction) w
  end.

(** ** Property access on [sourceTypes] *)

(** The string-keyed members of [Object.prototype].  [__proto__] is the
    accessor that reads and writes the [[Prototype]] slot of the
    receiver; it is handled in [registry_get] and [registry_put]. *)
Definition ObjectPrototype_table : list (string * Value) :=
  [ ("constructor", VFun (Native "Object"));
    ("toString", VFun (Native "Object.prototype.toString"));
    ("toLocaleString", VFun (Native "Object.prototype.toLocaleString"));
    ("valueOf", VFun (Native "Object.prototype.valueOf"));
    ("hasOwnProperty", VFun (Native "Object.prototype.hasOwnProperty"));
    ("isPrototypeOf", VFun (Native "Object.prototype.isPrototypeOf"));
    ("propertyIsEnumerable",
       VFun (Native "Object.prototype.propertyIsEnumerable"));
    ("__defineGetter__", VFun (Native "Object.prototype.__defineGetter__"));
    ("__defineSetter__", VFun (Native "Object.prototype.__defineSetter__"));
    ("__lookupGetter__", VFun (Native "Object.prototype.__lookupGetter__"));
    ("__lookupSetter__", VFun (Native "Object.prototype.__lookupSetter__")) ].

Fixpoint assoc (name : string) (t : list (string * Value)) : option Value :=
  match t with
  | [] => None
  | (k, v) :: rest => if String.eqb k name then Some v else assoc name rest
  end.

(** Names a fresh object literal answers to without owning them. *)
Definition ObjectPrototype_members : list string :=
  "__proto__" :: map fst ObjectPrototype_table.

(** What an object literal that does not own [name] reads under it:
    its prototype under [__proto__], the member of [Object.prototype]
    of that name if there is one, and [undefined] otherwise. *)
Definition ObjectPrototype_member (name : string) : Value :=
  if String.eqb name "__proto__" then VObjectPrototype
  else default VUndefined (assoc name ObjectPrototype_table).

(** [sourceTypes[name]] as a read.  An own property is returned.
    Otherwise the prototype answers: [Object.prototype] with its
    members; a function with itself under [__proto__], which it inherits
    as every function does, and with what the engine finds on it under
    any other name; another object with what the engine finds; and with
    no prototype the read gives [undefined]. *)
Definition registry_get (E : Engine) (w : World) (name : string)
  : Result Value :=
  let r := sourceTypes w in
  match own r !! name with
  | Some v => Ok v w
  | None =>
      match proto r with
      | VObjectPrototype => Ok (ObjectPrototype_member name) w
      | VFun _ | VBound _ _ =>
          if String.eqb name "__proto__" then Ok (proto r) w
          else chain_get E (proto r) name w
      | VObj _ => chain_get E (proto r) name w
      | _ => Ok VUndefined w
      end
  end.

Definition with_registry (w : World) (r : Registry) : World :=
  mkWorld r (heap w).

Definition define_own (w : World) (name : string) (v : Value) : World :=
  with_registry w (mkRegistry (<[name := v]> (own (sourceTypes w)))
                              (proto (sourceTypes w))).

(** The [__proto__] setter: it replaces the prototype when given an
    object or [null] and ignores anything else. *)
Definition set_prototype (w : World) (v : Value) : World :=
  match v with
  | VNull | VObj _ | VFun _ | VBound _ _ | VObjectPrototype =>
      with_registry w (mkRegistry (own (sourceTypes w)) v)
  | _ => w
  end.

(** An assignment that reaches a replacement prototype. *)
Definition put_through (E : Engine) (w : World) (name : string) (v : Value)
  : Result unit :=
  match chain_put E (proto (sourceTypes w)) name v w with
  | None => Ok tt (define_own w name v)
  | Some r => r
  end.

(** [sourceTypes[name] = v], in strict mode.  An own property is
    overwritten.  Otherwise the prototype chain decides.  Under
    [Object.prototype], [__proto__] is the setter above and any other
    name is defined on [sourceTypes] itself, the members of
    [Object.prototype] being writable.  Under a function the same setter
    is inherited and the engine decides for the other names; under
    another object the engine decides for all; with no prototype the
    property is defined. *)
Definition registry_put (E : Engine) (w : World) (name : string) (v : Value)
  : Result unit :=
  let r := sourceTypes w in
  match own r !! name with
  | Some _ => Ok tt (define_own w name v)
  | None =>
      match proto r with
      | VObjectPrototype =>
          if String.eqb name "__proto__" then Ok tt (set_prototype w v)
          else Ok tt (define_own w name v)
      | VFun _ | VBound _ _ =>
          if String.eqb name "__proto__" then Ok tt (set_prototype w v)
          else put_through E w name v
      | VObj _ => put_through E w name v
      | _ => Ok tt (define_own w name v)
      end
  end.

(** ** The module *)

(** [var sourceTypes = { 'vector': ..., 'raster': ..., 'geojson': ...,
    'video': ..., 'image': ... }] *)
Definition initial_sourceTypes : Registry :=
  mkRegistry
    (<["vector" := VFun VectorTileSource_create]>
     (<["raster" := VFun RasterTileSource_create]>
      (<["geojson" := VFun GeoJSONSource_create]>
       (<["video" := VFun VideoSource_create]>
        (<["image" := VFun ImageSource_create]> ∅)))))
    VObjectPrototype.

Definition builtin_names : list string :=
  ["vector"; "raster"; "geojson"; "video"; "image"].

(** [exports.getType = function (name) { return sourceTypes[name]; }] *)
Definition getType (E : Engine) (name : string) (w : World) : Result Value :=
  registry_get E w name.

(** [exports.setType = function (name, type) { sourceTypes[name] = type; }] *)
Definition setType (E : Engine) (name : string) (type : Value) (w : World)
  : Result Value :=
  bind_result (registry_put E w name type) (fun _ w' => Ok VUndefined w').

Definition lifecycle : list string :=
  ["load"; "abort"; "unload"; "serialize"; "prepare"].

(** Modelled from the spec: [util.bindAll], of js/util/util.js, which is
    not among the sources.  The spec has [create] bind the instance's
    lifecycle methods to the instance itself so that they keep their
    receiver when invoked detached.  For each name in turn the member is
    read; a name under which the instance holds nothing (a falsy value)
    is skipped, a function is replaced by its bound version, and any
    other value cannot be bound, which is a [TypeError]. *)
Fixpoint bindAll (E : Engine) (fns : list string) (context : Value)
         (w : World) : Result unit :=
  match fns with
  | [] => Ok tt w
  | fn :: rest =>
      match get_member w context fn with
      | inl e => Throw e w
      | inr v =>
          if truthy v then
            if is_callable E v then
              match context with
              | VObj l =>
                  bindAll E rest context
                          (set_member w l fn (VBound v context))
              | _ => bindAll E rest context w
              end
            else Throw (TypeError NotAFunction) w
          else bindAll E rest context w
      end
  end.

(** [sourceTypes[source.type](id, source, dispatcher)]: the type of the
    options is read and turned into a property key, the factory
    registered under it is looked up and called, with [sourceTypes] as
    receiver. *)
Definition construct (E : Engine) (id : string) (source : Value)
           (dispatcher : Value) (w : World) : Result Value :=
  bind_result (lift_read (get_member w source "type") w) (fun t w =>
  bind_result (to_string E t w) (fun key w =>
  bind_result (registry_get E w key) (fun factory w =>
  call_value E factory ThisSourceTypes [VStr id; source; dispatcher] w))).

(** ['Expected Source id to be ' + id + ' instead of ' + source.id] *)
Definition mismatch_message (id : string) (returned : string) : string :=
  "Expected Source id to be " ++ id ++ " instead of " ++ returned.

(** [exports.create = function(id, source, dispatcher) { ... }] *)
Definition create (E : Engine) (id : string) (source : Value)
           (dispatcher : Value) (w : World) : Result Value :=
  bind_result (construct E id source dispatcher w) (fun source w =>
  bind_result (lift_read (get_member w source "id") w) (fun sid w =>
  if strict_neq_string sid id
  then bind_result (to_string E sid w) (fun returned w =>
       Throw (Error (mismatch_message id returned)) w)
  else bind_result (bindAll E lifecycle source w) (fun _ w =>
       Ok source w))).

(** The [Source] interface documented in source.js lists [serialize] and
    [prepare] among its methods: on a source, whatever sits under a
    lifecycle name is a function.  [methods_bindable E fns w v] says so
    for the names [fns] of the value [v]. *)
Definition methods_bindable (E : Engine) (fns : list string) (w : World)
           (v : Value) : bool :=
  forallb (fun fn => match get_member w v fn with
                     | inr x => implb (truthy x) (is_callable E x)
                     | inl _ => true
                     end) fns.

(** What [bindAll] leaves under a name that held [v]. *)
Definition bound_member (context : Value) (v : Value) : Value :=
  if truthy v then VBound v context else v.


(** The world the module starts in. *)
Definition initial_world : World := mkWorld initial_sourceTypes ∅.

(** The world a call leaves behind, whether it returned or threw. *)
Definition world_after {A : Type} (r : Result A) : World :=
  match r with
  | Ok _ w => w
  | Throw _ w => w
  end.

(** ** Worlds the module can be in

    The registry starts as the object literal of source.js and is
    written by [setType] alone; the heap is written by whoever holds its
    objects.  [reachable E w] holds of the worlds reached when every
    registration is that of a function, under a name other than
    [__proto__]. *)
Inductive reachable (E : Engine) : World → Prop :=
  | reachable_initial (h : gmap loc (gmap string Value)) :
      reachable E (mkWorld initial_sourceTypes h)
  | reachable_setType (w w' : World) (n : string) (f : Fn) :
      reachable E w →
      n ≠ "__proto__" →
      setType E n (VFun f) w = Ok VUndefined w' →
      reachable E w'
  | reachable_heap (w : World) (h : gmap loc (gmap string Value)) :
      reachable E w →
      reachable E (mkWorld (sourceTypes w) h).

(** ** A concrete engine

    Enough of a JavaScript engine to run the module on examples: what a
    function object answers to, and a few third-party functions. *)
Module Demo.

(** Members every ordinary function reaches: its own [name], [length]
    and [prototype], then those of [Function.prototype]. *)
Definition function_table : list (string * Value) :=
  [ ("name", VStr "create");
    ("length", VNum 3%Z);
    ("prototype", VObj 1%positive);
    ("call", VFun (Native "Function.prototype.call"));
    ("apply", VFun (Native "Function.prototype.apply"));
    ("bind", VFun (Native "Function.prototype.bind"));
    ("toString", VFun (Native "Function.prototype.toString"));
    ("constructor", VFun (Native "Function")) ].

(** A read through a replacement prototype.  A function answers with its
    table, a heap object with its property table as it is in the heap,
    and both with the members of [Object.prototype] for the rest. *)
Definition demo_chain_get (p : Value) (name : string) (w : World)
  : Result Value :=
  match p with
  | VFun _ | VBound _ _ =>
      match assoc name function_table with
      | Some v => Ok v w
      | None => Ok (default VUndefined (assoc name ObjectPrototype_table)) w
      end
  | VObj l =>
      if String.eqb name "__proto__" then Ok p w
      else match heap w !! l ≫= (.!! name) with
           | Some v => Ok v w
           | None =>
               Ok (default VUndefined (assoc name ObjectPrototype_table)) w
           end
  | _ => Ok VUndefined w
  end.

(** An assignment through a replacement prototype.  The [name] and
    [length] of a function are read-only; a heap object passes on the
    [__proto__] setter it inherits. *)
Definition demo_chain_put (p : Value) (name : string) (v : Value) (w : World)
  : option (Result unit) :=
  match p with
  | VFun _ | VBound _ _ =>
      if String.eqb name "name" || String.eqb name "length"
      then Some (Throw (TypeError ReadOnlyProperty) w)
      else None
  | VObj _ =>
      if String.eqb name "__proto__" then Some (Ok tt (set_prototype w v))
      else None
  | _ => None
  end.

Definition demo_object_to_string (v : Value) (w : World) : Result string :=
  match v with
  | VFun _ | VBound _ _ => Ok "function () { [code] }" w
  | _ => Ok "[object Object]" w
  end.

Definition demo_number_to_string (z : Z) : string := "1e+21".

(** Third-party code.
    - [Custom 0]: a factory; it builds, at a free location, a source that
      carries the requested id, the options it was given, and a
      [serialize] method ([Custom 10]).
    - [Custom 1]: a factory that ignores the requested id and labels its
      source ["other"].
    - [Custom 10]: [serialize]; it returns the receiver's [_options].
    - [Custom 2]: a factory whose sources serialize, through
      [Custom 11], to [undefined].
    Of the built-in functions, [Object.prototype.toString] returns
    ["[object Object]"] for the receiver it is given here. *)
Definition free_loc (w : World) : loc :=
  match heap w !! 2%positive with
  | None => 2%positive
  | Some _ => 3%positive
  end.

Definition new_source (id : Value) (options : Value) (ser : Fn) (w : World)
  : World :=
  mkWorld (sourceTypes w)
          (<[free_loc w := <["id" := id]>
                           (<["_options" := options]>
                            (<["serialize" := VFun ser]>
                             (<["minzoom" := VNum 0%Z]> ∅)))]> (heap w)).

Definition demo_run (f : Fn) (this : Receiver) (args : list Value) (w : World)
  : Result Value :=
  match f, args with
  | Custom 0, id :: options :: _ =>
      Ok (VObj (free_loc w)) (new_source id options (Custom 10) w)
  | Custom 1, _ :: options :: _ =>
      Ok (VObj (free_loc w)) (new_source (VStr "other") options (Custom 10) w)
  | Custom 2, id :: options :: _ =>
      Ok (VObj (free_loc w)) (new_source id options (Custom 11) w)
  | Custom 10, _ =>
      match this with
      | ThisValue o => lift_read (get_member w o "_options") w
      | ThisSourceTypes => Ok VUndefined w
      end
  | Native name, _ =>
      if String.eqb name "Object.prototype.toString"
      then Ok (VStr "[object Object]") w
      else Ok VUndefined w
  | _, _ => Ok VUndefined w
  end.

(** No heap object of these examples is a function. *)
Definition demo_object_code (l : loc) : option Fn := None.

Definition engine : Engine :=
  mkEngine demo_run demo_chain_get demo_chain_put demo_object_to_string
           demo_number_to_string demo_object_code.

(** A world in which the three factories are registered, as ["custom"],
    ["mismatch"] and ["lossy"], and three option objects, at locations 5,
    6 and 7, that name them. *)
Definition registered : Registry :=
  mkRegistry
    (<["custom" := VFun (Custom 0)]>
     (<["mismatch" := VFun (Custom 1)]>
      (<["lossy" := VFun (Custom 2)]> (own initial_sourceTypes))))
    VObjectPrototype.

Definition world : World :=
  mkWorld registered
          (<[5%positive := <["type" := VStr "custom"]> ∅]>
           (<[6%positive := <["type" := VStr "mismatch"]> ∅]>
            (<[7%positive := <["type" := VStr "lossy"]> ∅]>
             (<[8%positive := <["type" := VStr "nowhere"]> ∅]> ∅)))).

End Demo.

(** ** Faulty third-party code

    The engine of [Demo] with more functions, each a factory that does
    not keep to the interface:
    - [Custom 20] throws;
    - [Custom 21] returns nothing;
    - [Custom 22] returns a number;
    - [Custom 23] writes [this.image = 'gone'], [this] being
      [sourceTypes], and then builds a source as [Custom 0] does;
    - [Custom 24] returns the object at location 41, which exists
      already, as it is;
    - [Custom 25] builds a source that carries the requested id and has
      the number 5 under [load];
    - [Custom 26] builds a source whose [serialize] is already bound, to
      the object at location 5;
    - [Custom 27] builds a source whose [id] is the object at location
      42, the string conversion of which throws;
    - [Custom 28] builds a source whose [id] is the number 7.
    Two more keep to it: [Custom 29] builds a source that carries the
    requested id and a method under each of the five lifecycle names
    ([Custom 10] to [Custom 14]), and [Custom 30] returns the function
    at location 43, which carries the id ["a"].
    An object at location 40, when it is the prototype of [sourceTypes],
    has a setter [foo] that deletes the [vector] of its receiver. *)
Module Faulty.

Definition faulty_run (f : Fn) (this : Receiver) (args : list Value)
           (w : World) : Result Value :=
  match f, args with
  | Custom 20, _ => Throw (Thrown (VStr "no network")) w
  | Custom 21, _ => Ok VUndefined w
  | Custom 22, _ => Ok (VNum 7) w
  | Custom 23, id :: options :: _ =>
      let w1 := define_own w "image" (VStr "gone") in
      Ok (VObj (Demo.free_loc w1)) (Demo.new_source id options (Custom 10) w1)
  | Custom 24, _ => Ok (VObj 41%positive) w
  | Custom 30, _ => Ok (VObj 43%positive) w
  | Custom 25, id :: options :: _ =>
      Ok (VObj (Demo.free_loc w))
         (set_member (Demo.new_source id options (Custom 10) w)
                     (Demo.free_loc w) "load" (VNum 5))
  | Custom 26, id :: options :: _ =>
      Ok (VObj (Demo.free_loc w))
         (set_member (Demo.new_source id options (Custom 10) w)
                     (Demo.free_loc w) "serialize"
                     (VBound (VFun (Custom 10)) (VObj 5%positive)))
  | Custom 27, _ :: options :: _ =>
      Ok (VObj (Demo.free_loc w))
         (Demo.new_source (VObj 42%positive) options (Custom 10) w)
  | Custom 28, _ :: options :: _ =>
      Ok (VObj (Demo.free_loc w))
         (Demo.new_source (VNum 7) options (Custom 10) w)
  | Custom 29, id :: options :: _ =>
      let l := Demo.free_loc w in
      Ok (VObj l)
         (set_member
            (set_member
               (set_member
                  (set_member (Demo.new_source id options (Custom 10) w)
                              l "load" (VFun (Custom 11)))
                  l "abort" (VFun (Custom 12)))
               l "unload" (VFun (Custom 13)))
            l "prepare" (VFun (Custom 14)))
  | _, _ => Demo.demo_run f this args w
  end.

Definition faulty_chain_put (p : Value) (name : string) (v : Value)
           (w : World) : option (Result unit) :=
  match p with
  | VObj 40%positive =>
      if String.eqb name "foo"
      then Some (Ok tt (with_registry w
                          (mkRegistry (delete "vector" (own (sourceTypes w)))
                                      (proto (sourceTypes w)))))
      else Demo.demo_chain_put p name v w
  | _ => Demo.demo_chain_put p name v w
  end.

(** The object at location 43 is a function, with the code [Custom 10]. *)
Definition faulty_object_code (l : loc) : option Fn :=
  match l with
  | 43%positive => Some (Custom 10)
  | _ => None
  end.

Definition faulty_object_to_string (v : Value) (w : World) : Result string :=
  match v with
  | VObj 42%positive => Throw (Thrown (VStr "no string")) w
  | _ => Demo.demo_object_to_string v w
  end.

Definition engine : Engine :=
  mkEngine faulty_run Demo.demo_chain_get faulty_chain_put
           faulty_object_to_string Demo.demo_number_to_string
           faulty_object_code.

(** [Demo.world] with the factories registered as ["throws"],
    ["nothing"], ["number"], ["writer"], ["reuse"], ["loads"],
    ["prebound"], ["objid"], ["numid"], ["full"] and ["function"], a
    well-behaved one registered
    as ["undefined"], and a string registered as ["text"].  The options
    at locations 10 to 12 and 14 to 23 name a type each, and the options
    at 13 have none. *)
Definition registered : Registry :=
  mkRegistry
    (<["throws" := VFun (Custom 20)]>
     (<["nothing" := VFun (Custom 21)]>
      (<["number" := VFun (Custom 22)]>
       (<["undefined" := VFun (Custom 0)]>
        (<["text" := VStr "not a factory"]>
         (<["writer" := VFun (Custom 23)]>
          (<["reuse" := VFun (Custom 24)]>
           (<["loads" := VFun (Custom 25)]>
            (<["prebound" := VFun (Custom 26)]>
             (<["objid" := VFun (Custom 27)]>
              (<["numid" := VFun (Custom 28)]>
               (<["full" := VFun (Custom 29)]>
                (<["function" := VFun (Custom 30)]>
                 (own Demo.registered))))))))))))))
    VObjectPrototype.

Definition options (t : string) : gmap string Value :=
  <["type" := VStr t]> ∅.

Definition world : World :=
  mkWorld registered
    (<[10%positive := options "throws"]>
     (<[11%positive := options "nothing"]>
      (<[12%positive := options "number"]>
       (<[13%positive := <["url" := VStr "mapbox://tiles"]> ∅]>
        (<[14%positive := options "text"]>
         (<[15%positive := options "writer"]>
          (<[16%positive := options "reuse"]>
           (<[17%positive := options "loads"]>
            (<[18%positive := options "prebound"]>
             (<[19%positive := options "objid"]>
              (<[20%positive := options "numid"]>
               (<[21%positive := options "toString"]>
                (<[22%positive := options "full"]>
                (<[23%positive := options "function"]>
                (<[43%positive := <["id" := VStr "a"]>
                                  (<["load" := VFun (Custom 11)]> ∅)]>
                (<[41%positive := <["id" := VStr "a"]>
                                  (<["serialize" := VFun (Custom 10)]>
                                   (<["_options" := VObj 16%positive]> ∅))]>
                 (heap Demo.world))))))))))))))))).

End Faulty.

(** ** Source types that keep the interface *)

Module Plain.

(** The code pointer of the [serialize] method of a source; every other
    third-party function, and each of the five built-in ones, is the
    factory of a source type. *)
Definition serialize_fn : Fn := Custom 0.

(** Modelled from the spec: the sources that the source types build.
    The source modules ([vector_tile_source] and the other four) are not
    among the sources.  The spec gives a source its attributes, [id],
    [minzoom], [maxzoom], [isTileClipped], [reparseOverscaled] and
    [roundZoom], has the factory of its scenario return [{id, minzoom:
    0, maxzoom: 22, ...}], and has [serialize] return a plain
    representation from which [create] builds the source again.  The
    source built here keeps, under [_options], the options it was built
    from. *)
Definition source_table (id options : Value) : gmap string Value :=
  <["id" := id]>
  (<["minzoom" := VNum 0]>
   (<["maxzoom" := VNum 22]>
    (<["isTileClipped" := VBool false]>
     (<["reparseOverscaled" := VBool false]>
      (<["roundZoom" := VBool false]>
       (<["_options" := options]>
        (<["serialize" := VFun serialize_fn]> ∅))))))).

(** A new object: a location the heap does not use yet. *)
Definition alloc (w : World) (t : gmap string Value) : loc * World :=
  let l := fresh (dom (heap w)) in
  (l, mkWorld (sourceTypes w) (<[l := t]> (heap w))).

(** Modelled from the spec: the factory of a source type, called on
    [(id, options, dispatcher)].  It returns a new source. *)
Definition factory_body (args : list Value) (w : World) : Result Value :=
  let (l, w') := alloc w (source_table (nth 0 args VUndefined)
                                       (nth 1 args VUndefined)) in
  Ok (VObj l) w'.

(** Modelled from the spec: [serialize].  It returns a plain
    representation of the source: a new object with the properties of
    the options the source was built from, or those options themselves
    when they are not an object. *)
Definition serialize_body (this : Receiver) (w : World) : Result Value :=
  match this with
  | ThisValue s =>
      bind_result (lift_read (get_member w s "_options") w) (fun o w =>
        match o with
        | VObj lo =>
            let (l, w') := alloc w (default ∅ (heap w !! lo)) in
            Ok (VObj l) w'
        | _ => Ok o w
        end)
  | ThisSourceTypes => Ok VUndefined w
  end.

Definition plain_run (f : Fn) (this : Receiver) (args : list Value)
           (w : World) : Result Value :=
  match f with
  | Custom 0 => serialize_body this w
  | Native name =>
      if String.eqb name "Object.prototype.toString"
      then Ok (VStr "[object Object]") w
      else Ok VUndefined w
  | _ => factory_body args w
  end.

Definition engine : Engine :=
  mkEngine plain_run Demo.demo_chain_get Demo.demo_chain_put
           Demo.demo_object_to_string Demo.demo_number_to_string
           Demo.demo_object_code.




(** A world with a third-party type registered, and options for it. *)
Definition world : World :=
  mkWorld
    (sourceTypes
       (world_after (setType engine "custom" (VFun (Custom 1)) initial_world)))
    (<[5%positive := <["type" := VStr "custom"]>
                     (<["url" := VStr "mapbox://tiles"]> ∅)]> ∅).

End Plain.

(** * Properties *)

(** ** Reading and writing [sourceTypes] *)

Section RegistryFacts.
Context (E : Engine).

Lemma registry_get_own w name v :
  own (sourceTypes w) !! name = Some v → registry_get E w name = Ok v w.
Proof. intros H. unfold registry_get. by rewrite H. Qed.

Lemma registry_get_define_own_eq w name v :
  registry_get E (define_own w name v) name = Ok v (define_own w name v).
Proof. apply registry_get_own. simpl. apply lookup_insert_eq. Qed.

(** Under [Object.prototype] a read runs no code. *)
Lemma registry_get_pristine w name :
  proto (sourceTypes w) = VObjectPrototype →
  registry_get E w name
  = Ok (default (ObjectPrototype_member name) (own (sourceTypes w) !! name)) w.
Proof.
  intros Hp. unfold registry_get. rewrite Hp.
  by destruct (own (sourceTypes w) !! name).
Qed.

(** Under [Object.prototype] an assignment to a name other than
    [__proto__] defines the own property. *)
Lemma registry_put_pristine_ne w name v :
  proto (sourceTypes w) = VObjectPrototype →
  name ≠ "__proto__" →
  registry_put E w name v = Ok tt (define_own w name v).
Proof.
  intros Hp Hne. unfold registry_put. rewrite Hp.
  apply String.eqb_neq in Hne. rewrite Hne.
  by destruct (own (sourceTypes w) !! name).
Qed.


(** While the prototype is [Object.prototype], an assignment of a
    function never throws, and the function is read back. *)
Lemma registry_put_pristine w name f :
  proto (sourceTypes w) = VObjectPrototype →
  ∃ w', registry_put E w name (VFun f) = Ok tt w'
        ∧ registry_get E w' name = Ok (VFun f) w'
        ∧ heap w' = heap w.
Proof.
  intros Hp. unfold registry_put. rewrite Hp.
  destruct (own (sourceTypes w) !! name) eqn:Hown.
  { eexists. split; [done|]. split; [apply registry_get_define_own_eq|done]. }
  destruct (String.eqb name "__proto__") eqn:Hn.
  - eexists. split; [done|]. split; [|done].
    unfold registry_get. simpl. by rewrite Hown, Hn.
  - eexists. split; [done|].
    split; [apply registry_get_define_own_eq|done].
Qed.
End RegistryFacts.

Lemma assoc_None_iff name t :
  assoc name t = None ↔ ¬ In name (map fst t).
Proof.
  induction t as [|[k v] t IH]; simpl; [tauto|].
  destruct (String.eqb k name) eqn:Hk.
  - apply String.eqb_eq in Hk. split; [done|]. intros H. destruct H. by left.
  - apply String.eqb_neq in Hk. rewrite IH. tauto.
Qed.

Lemma ObjectPrototype_table_defined name v :
  assoc name ObjectPrototype_table = Some v → v ≠ VUndefined.
Proof.
  unfold ObjectPrototype_table. simpl.
  repeat (match goal with
          | |- context [if ?b then _ else _] => destruct b
          end; [intros [= <-]; done|]).
  done.
Qed.

(** A name is inherited from [Object.prototype] exactly when the read of
    it does not give [undefined]. *)
Lemma ObjectPrototype_member_undefined name :
  ObjectPrototype_member name = VUndefined
  ↔ ¬ In name ObjectPrototype_members.
Proof.
  unfold ObjectPrototype_member, ObjectPrototype_members.
  destruct (String.eqb name "__proto__") eqn:Hn.
  - apply String.eqb_eq in Hn. subst name. split; [done|].
    intros H. destruct H. by left.
  - apply String.eqb_neq in Hn.
    destruct (assoc name ObjectPrototype_table) as [v|] eqn:Ha.
    + change (default VUndefined (Some v)) with v. split.
      * intros ->. by apply ObjectPrototype_table_defined in Ha.
      * intros H. destruct H. right. apply dec_stable. intros Hnot.
        apply assoc_None_iff in Hnot. congruence.
    + split; [|done]. intros _ [Heq|Hin]; [by symmetry in Heq|].
      by apply assoc_None_iff in Ha.
Qed.

Lemma initial_own_builtin name :
  In name builtin_names →
  ∃ f, own initial_sourceTypes !! name = Some (VFun f).
Proof.
  simpl. intros [<-|[<-|[<-|[<-|[<-|[]]]]]]; eexists; reflexivity.
Qed.

Lemma initial_own_other name :
  ¬ In name builtin_names → own initial_sourceTypes !! name = None.
Proof.
  simpl. intros H.
  repeat (rewrite lookup_insert_ne; [|intros <-; tauto]).
  apply lookup_empty.
Qed.

Lemma classic_builtin name :
  In name builtin_names ∨ ¬ In name builtin_names.
Proof. destruct (decide (name ∈ builtin_names)) as [H|H];
  rewrite list_elem_of_In in H; tauto. Qed.

(** ** C4: a registration is read back *)




(** ** C5: the initial registry *)

(** C5, as amended.  In the initial registry [getType(n)] returns the
    built-in factory for each of the five names [vector], [raster],
    [geojson], [video] and [image].  For any other name it returns what
    an object literal inherits from [Object.prototype] under that name:
    the inherited member for the twelve names listed, and [undefined]
    for every name that is neither built-in nor one of the twelve. *)
Theorem getType_initial (E : Engine) (h : gmap loc (gmap string Value))
        (n : string) :
  ∃ v, getType E n (mkWorld initial_sourceTypes h)
       = Ok v (mkWorld initial_sourceTypes h)
       ∧ (n = "vector" → v = VFun VectorTileSource_create)
       ∧ (n = "raster" → v = VFun RasterTileSource_create)
       ∧ (n = "geojson" → v = VFun GeoJSONSource_create)
       ∧ (n = "video" → v = VFun VideoSource_create)
       ∧ (n = "image" → v = VFun ImageSource_create)
       ∧ (¬ In n builtin_names → v = ObjectPrototype_member n)
       ∧ (v = VUndefined
          ↔ ¬ In n builtin_names ∧ ¬ In n ObjectPrototype_members)
       ∧ ObjectPrototype_members
         = [ "__proto__"; "constructor"; "toString"; "toLocaleString";
             "valueOf"; "hasOwnProperty"; "isPrototypeOf";
             "propertyIsEnumerable"; "__defineGetter__"; "__defineSetter__";
             "__lookupGetter__"; "__lookupSetter__" ].
Proof.
  unfold getType. rewrite registry_get_pristine by done.
  eexists. split; [reflexivity|].
  cbn [sourceTypes].
  destruct (classic_builtin n) as [Hin|Hout].
  - assert (Hno : ¬ (¬ In n builtin_names)) by tauto.
    simpl in Hin.
    destruct Hin as [<-|[<-|[<-|[<-|[<-|[]]]]]];
      (split; [first [discriminate | intros _; vm_compute; reflexivity]|]);
      (split; [first [discriminate | intros _; vm_compute; reflexivity]|]);
      (split; [first [discriminate | intros _; vm_compute; reflexivity]|]);
      (split; [first [discriminate | intros _; vm_compute; reflexivity]|]);
      (split; [first [discriminate | intros _; vm_compute; reflexivity]|]);
      (split; [intros H; destruct (Hno H)|]);
      (split; [|reflexivity]);
      (split; [vm_compute; discriminate | intros [H _]; destruct (Hno H)]).
  - rewrite (initial_own_other n Hout).
    change (default (ObjectPrototype_member n) None)
      with (ObjectPrototype_member n).
    assert (Hne : ∀ b, In b builtin_names → n ≠ b) by (intros b Hb ->; done).
    split; [intros Hn; destruct (Hne "vector"); simpl; tauto|].
    split; [intros Hn; destruct (Hne "raster"); simpl; tauto|].
    split; [intros Hn; destruct (Hne "geojson"); simpl; tauto|].
    split; [intros Hn; destruct (Hne "video"); simpl; tauto|].
    split; [intros Hn; destruct (Hne "image"); simpl; tauto|].
    split; [done|]. split; [|reflexivity].
    rewrite ObjectPrototype_member_undefined. tauto.
Qed.

(** C5 fails as stated: ["toString"] is none of the five built-in names,
    yet [getType('toString')] is not [undefined] in the initial
    registry; it is the [toString] every object literal inherits. *)
Lemma getType_initial_counterexample :
  ¬ (∀ n : string, ¬ In n builtin_names →
       getType Demo.engine n initial_world = Ok VUndefined initial_world).
Proof.
  intros H. specialize (H "toString").
  assert (Hout : ¬ In "toString" builtin_names).
  { simpl. intros [?|[?|[?|[?|[?|[]]]]]]; discriminate. }
  specialize (H Hout). vm_compute in H. discriminate H.
Qed.

(** ** C10: a registration leaves the other names alone *)




(** ** Members of a heap object *)

Lemma get_member_obj w l name :
  ∃ v, get_member w (VObj l) name = inr v.
Proof. simpl. destruct (heap w !! l); eauto. Qed.

Lemma get_member_set_eq w l name v :
  get_member (set_member w l name v) (VObj l) name = inr v.
Proof.
  simpl. rewrite lookup_insert_eq. by rewrite lookup_insert_eq.
Qed.

Lemma get_member_set_ne w l fn name v :
  fn ≠ name →
  get_member (set_member w l fn v) (VObj l) name = get_member w (VObj l) name.
Proof.
  intros Hne. simpl. rewrite lookup_insert_eq.
  rewrite lookup_insert_ne by done.
  destruct (heap w !! l); simpl; [done|]. by rewrite lookup_empty.
Qed.

Lemma heap_set_member_other w l l' fn v :
  l ≠ l' → heap (set_member w l fn v) !! l' = heap w !! l'.
Proof. intros Hne. simpl. by rewrite lookup_insert_ne. Qed.

(** ** [bindAll] *)

Section BindAllFacts.
Context (E : Engine).

(** One step of [bindAll] on a heap object, by the value found. *)
Lemma bindAll_cons fn rest l w v :
  get_member w (VObj l) fn = inr v →
  bindAll E (fn :: rest) (VObj l) w =
    if truthy v then
      if is_callable E v
      then bindAll E rest (VObj l) (set_member w l fn (VBound v (VObj l)))
      else Throw (TypeError NotAFunction) w
    else bindAll E rest (VObj l) w.
Proof. intros H. cbn [bindAll]. by rewrite H. Qed.

(** [bindAll] touches the heap object it is given and nothing else. *)
Lemma bindAll_frame fns l : ∀ w r,
  bindAll E fns (VObj l) w = r →
  sourceTypes (world_after r) = sourceTypes w
  ∧ (∀ l', l ≠ l' → heap (world_after r) !! l' = heap w !! l')
  ∧ (∀ name, ¬ In name fns →
       get_member (world_after r) (VObj l) name = get_member w (VObj l) name).
Proof.
  induction fns as [|fn rest IH]; intros w r Hr.
  - simpl in Hr. subst r. simpl. auto.
  - destruct (get_member_obj w l fn) as [v Hv].
    rewrite (bindAll_cons _ _ _ _ _ Hv) in Hr.
    destruct (truthy v).
    + destruct (is_callable E v).
      * destruct (IH _ _ Hr) as (Hreg & Hheap & Hmem).
        split; [by rewrite Hreg|]. split.
        -- intros l' Hl. rewrite Hheap by done.
           by apply heap_set_member_other.
        -- intros name Hname. rewrite Hmem by (simpl in Hname; tauto).
           apply get_member_set_ne. simpl in Hname. tauto.
      * subst r. simpl. auto.
    + destruct (IH _ _ Hr) as (Hreg & Hheap & Hmem).
      split; [done|]. split; [done|].
      intros name Hname. apply Hmem. simpl in Hname. tauto.
Qed.

(** After a [bindAll] that returned, each listed name holds the bound
    version of what it held, and what it held was a function or falsy. *)
Lemma bindAll_bound fns l : ∀ w w',
  NoDup fns →
  bindAll E fns (VObj l) w = Ok tt w' →
  ∀ name v, In name fns →
    get_member w (VObj l) name = inr v →
    get_member w' (VObj l) name = inr (bound_member (VObj l) v)
    ∧ implb (truthy v) (is_callable E v) = true.
Proof.
  induction fns as [|fn rest IH]; intros w w' Hnd Hb name v Hin Hget;
    [destruct Hin|].
  apply NoDup_cons in Hnd as [Hfresh Hnd].
  rewrite list_elem_of_In in Hfresh.
  destruct (get_member_obj w l fn) as [x Hx].
  rewrite (bindAll_cons _ _ _ _ _ Hx) in Hb.
  destruct Hin as [->|Hin].
  - rewrite Hx in Hget. injection Hget as ->.
    unfold bound_member.
    destruct (truthy v) eqn:Ht.
    + destruct (is_callable E v) eqn:Hc; [|discriminate Hb].
      split; [|done].
      destruct (bindAll_frame _ _ _ _ Hb) as (_ & _ & Hmem).
      cbn [world_after] in Hmem. rewrite Hmem by done.
      apply get_member_set_eq.
    + split; [|done].
      destruct (bindAll_frame _ _ _ _ Hb) as (_ & _ & Hmem).
      cbn [world_after] in Hmem. by rewrite Hmem.
  - assert (Hne : fn ≠ name) by (intros ->; done).
    destruct (truthy x).
    + destruct (is_callable E x); [|discriminate Hb].
      apply (IH _ _ Hnd Hb name v Hin).
      by rewrite get_member_set_ne.
    + by apply (IH _ _ Hnd Hb name v Hin).
Qed.

(** [bindAll] returns when every listed member can be bound. *)
Lemma bindAll_returns fns l : ∀ w,
  methods_bindable E fns w (VObj l) = true →
  ∃ w', bindAll E fns (VObj l) w = Ok tt w'.
Proof.
  induction fns as [|fn rest IH]; intros w Hok; [by eexists|].
  destruct (get_member_obj w l fn) as [v Hv].
  rewrite (bindAll_cons _ _ _ _ _ Hv).
  unfold methods_bindable in Hok. cbn [forallb] in Hok.
  apply andb_prop in Hok as [Hhd Htl]. rewrite Hv in Hhd.
  destruct (truthy v) eqn:Ht; [|by apply IH].
  simpl in Hhd. rewrite Hhd. apply IH.
  unfold methods_bindable. rewrite forallb_forall in Htl |- *.
  intros name Hname.
  destruct (String.eqb fn name) eqn:Hfn.
  - apply String.eqb_eq in Hfn. subst name.
    by rewrite get_member_set_eq.
  - apply String.eqb_neq in Hfn. rewrite get_member_set_ne by done.
    by apply Htl.
Qed.

End BindAllFacts.

Lemma NoDup_lifecycle : NoDup lifecycle.
Proof.
  unfold lifecycle.
  repeat (apply NoDup_cons; split;
          [rewrite list_elem_of_In; simpl; intuition discriminate|]).
  apply NoDup_nil. done.
Qed.

(** ** [create], step by step *)

Lemma strict_neq_string_false sid id :
  strict_neq_string sid id = false → sid = VStr id.
Proof.
  destruct sid; simpl; try discriminate.
  intros H. apply negb_false_iff, String.eqb_eq in H. by subst.
Qed.


Lemma strict_neq_string_refl id : strict_neq_string (VStr id) id = false.
Proof. simpl. by rewrite String.eqb_refl. Qed.

(** Only a heap object has a string under [id]. *)
Lemma get_member_string_obj w v name s :
  get_member w v name = inr (VStr s) → ∃ l, v = VObj l.
Proof. destruct v; simpl; try discriminate; eauto. Qed.

Section CreateFacts.
Context (E : Engine) (id : string) (source dispatcher : Value).

Lemma create_construct_throw w e w1 :
  construct E id source dispatcher w = Throw e w1 →
  create E id source dispatcher w = Throw e w1.
Proof. intros H. unfold create. by rewrite H. Qed.

Lemma create_construct_ok w v w1 :
  construct E id source dispatcher w = Ok v w1 →
  create E id source dispatcher w =
    match get_member w1 v "id" with
    | inl e => Throw e w1
    | inr sid =>
        if strict_neq_string sid id
        then bind_result (to_string E sid w1) (fun returned w2 =>
             Throw (Error (mismatch_message id returned)) w2)
        else bind_result (bindAll E lifecycle v w1) (fun _ w2 => Ok v w2)
    end.
Proof.
  intros H. unfold create. rewrite H. cbn [bind_result].
  destruct (get_member w1 v "id"); reflexivity.
Qed.

(** What a [create] that returned went through. *)
Lemma create_ok_inv w v w2 :
  create E id source dispatcher w = Ok v w2 →
  ∃ l w1, v = VObj l
    ∧ construct E id source dispatcher w = Ok (VObj l) w1
    ∧ get_member w1 (VObj l) "id" = inr (VStr id)
    ∧ bindAll E lifecycle (VObj l) w1 = Ok tt w2.
Proof.
  intros H.
  destruct (construct E id source dispatcher w) as [v1 w1|e w1] eqn:Hc.
  2:{ rewrite (create_construct_throw _ _ _ Hc) in H. discriminate H. }
  rewrite (create_construct_ok _ _ _ Hc) in H.
  destruct (get_member w1 v1 "id") as [e|sid] eqn:Hid; [discriminate H|].
  destruct (strict_neq_string sid id) eqn:Hneq.
  { destruct (to_string E sid w1); discriminate H. }
  apply strict_neq_string_false in Hneq. subst sid.
  destruct (get_member_string_obj _ _ _ _ Hid) as [l ->].
  destruct (bindAll E lifecycle (VObj l) w1) as [[] w2'|e w2'] eqn:Hb;
    simpl in H; [|discriminate H].
  injection H as <- <-. by exists l, w1.
Qed.

(** The look-up of a type that is a string. *)
Lemma construct_string_type w t :
  get_member w source "type" = inr (VStr t) →
  construct E id source dispatcher w =
    bind_result (getType E t w) (fun factory w =>
      call_value E factory ThisSourceTypes [VStr id; source; dispatcher] w).
Proof. intros H. unfold construct. rewrite H. reflexivity. Qed.
End CreateFacts.

(** A source with the requested id and bindable methods passes the
    check and is returned. *)
Lemma create_of_construct (E : Engine) id o dispatcher w s w1 :
  construct E id o dispatcher w = Ok s w1 →
  get_member w1 s "id" = inr (VStr id) →
  methods_bindable E lifecycle w1 s = true →
  ∃ l w2, s = VObj l
    ∧ bindAll E lifecycle (VObj l) w1 = Ok tt w2
    ∧ create E id o dispatcher w = Ok s w2.
Proof.
  intros Hc Hid Hsrc.
  rewrite (create_construct_ok _ _ _ _ _ _ _ Hc), Hid, strict_neq_string_refl.
  destruct (get_member_string_obj _ _ _ _ Hid) as [l ->].
  destruct (bindAll_returns _ _ _ _ Hsrc) as [w2 Hb].
  exists l, w2. by rewrite Hb.
Qed.

(** ** C1: the source returned carries the requested id *)

(** C1, as amended.  Let [t] be a registered type name, [getType(t)]
    being the factory [factory], and [o] an options object with
    [o.type = t].  If the factory, called on [(id, o, dispatcher)],
    returns a source that carries the requested id and holds, under each
    of the five lifecycle names, nothing or a function, then
    [create(id, o, dispatcher)] returns that source, and its [id] equals
    the [id] argument. *)
Theorem create_id (E : Engine) (id : string) (o dispatcher : Value)
        (w : World) (t : string) (factory : Value) (w0 : World) (s : Value)
        (w1 : World) :
  get_member w o "type" = inr (VStr t) →
  getType E t w = Ok factory w0 →
  call_value E factory ThisSourceTypes [VStr id; o; dispatcher] w0 = Ok s w1 →
  get_member w1 s "id" = inr (VStr id) →
  methods_bindable E ["load"; "abort"; "unload"; "serialize"; "prepare"] w1 s
  = true →
  ∃ w2, create E id o dispatcher w = Ok s w2
        ∧ get_member w2 s "id" = inr (VStr id).
Proof.
  intros Htype Hreg Hcall Hid Hsrc.
  assert (Hc : construct E id o dispatcher w = Ok s w1).
  { rewrite (construct_string_type _ _ _ _ _ _ Htype), Hreg. exact Hcall. }
  destruct (create_of_construct _ _ _ _ _ _ _ Hc Hid Hsrc)
    as (l & w2 & -> & Hb & Hcreate).
  exists w2. split; [done|].
  destruct (bindAll_frame _ _ _ _ _ Hb) as (_ & _ & Hmem).
  cbn [world_after] in Hmem. rewrite Hmem; [done|].
  simpl. intuition discriminate.
Qed.

Lemma create_id_witness :
  ∃ w2, create Demo.engine "a" (VObj 5%positive) VNull Demo.world
        = Ok (VObj 2%positive) w2
        ∧ get_member w2 (VObj 2%positive) "id" = inr (VStr "a").
Proof.
  apply (create_id Demo.engine "a" (VObj 5%positive) VNull Demo.world
                   "custom" (VFun (Custom 0)) Demo.world (VObj 2%positive)
                   (Demo.new_source (VStr "a") (VObj 5%positive) (Custom 10)
                                    Demo.world));
    reflexivity.
Defined.

(** C1 fails as stated.  The factory registered as ["loads"] returns a
    source that carries the requested id and has the number 5 under
    [load]: the binding of line 37 throws on it, and [create] returns
    nothing. *)
Lemma create_id_counterexample :
  ¬ (∀ (id : string) (o dispatcher : Value) (w : World) (t : string)
       (factory : Value) (w0 : World) (s : Value) (w1 : World),
       get_member w o "type" = inr (VStr t) →
       getType Faulty.engine t w = Ok factory w0 →
       call_value Faulty.engine factory ThisSourceTypes
                  [VStr id; o; dispatcher] w0 = Ok s w1 →
       get_member w1 s "id" = inr (VStr id) →
       ∃ w2, create Faulty.engine id o dispatcher w = Ok s w2
             ∧ get_member w2 s "id" = inr (VStr id)).
Proof.
  intros H.
  destruct (H "a" (VObj 17%positive) VNull Faulty.world "loads"
              (VFun (Custom 25)) Faulty.world (VObj 2%positive)
              (world_after
                 (construct Faulty.engine "a" (VObj 17%positive) VNull
                            Faulty.world))
              eq_refl eq_refl eq_refl eq_refl) as (w2 & Hcreate & _).
  discriminate Hcreate.
Qed.

(** ** C2: an unknown type *)

(** C2, as amended.  When [getType] answers [undefined] for the type
    named by the options, the name being neither registered nor
    inherited by [sourceTypes], [create] throws at the call of the
    missing factory, in the world the look-up left: no factory is run,
    the outcome being the same whatever the bodies of the engine's
    functions are, and nothing is returned. *)
Theorem create_unknown_type (E : Engine) (id : string) (o dispatcher : Value)
        (w : World) (t : string) (w0 : World)
        (run' : Fn → Receiver → list Value → World → Result Value) :
  get_member w o "type" = inr (VStr t) →
  getType E t w = Ok VUndefined w0 →
  create (mkEngine run' (chain_get E) (chain_put E) (object_to_string E)
                   (number_to_string E) (object_code E))
         id o dispatcher w
  = Throw (TypeError NotAFunction) w0.
Proof.
  intros Htype Habsent.
  apply create_construct_throw.
  rewrite (construct_string_type _ _ _ _ _ _ Htype).
  unfold getType in *.
  replace (registry_get _ w t) with (registry_get E w t); [|done].
  by rewrite Habsent.
Qed.

Lemma create_unknown_type_witness :
  create (mkEngine (λ _ _ _ w, Ok (VStr "ran") w) Demo.demo_chain_get
                   Demo.demo_chain_put Demo.demo_object_to_string
                   Demo.demo_number_to_string Demo.demo_object_code)
         "a" (VObj 8%positive) VNull Demo.world
  = Throw (TypeError NotAFunction) Demo.world.
Proof.
  apply (create_unknown_type Demo.engine "a" (VObj 8%positive) VNull
                             Demo.world "nowhere"); reflexivity.
Defined.

(** C2 fails as stated.  ["toString"] is absent from the registry, which
    does not own it, yet [sourceTypes['toString']] is the function every
    object literal inherits: line 31 calls it, and [create] ends in the
    error of line 34 for the string it returns. *)
Lemma create_unknown_type_counterexample :
  own (sourceTypes Faulty.world) !! "toString" = None
  ∧ get_member Faulty.world (VObj 21%positive) "type" = inr (VStr "toString")
  ∧ construct Faulty.engine "a" (VObj 21%positive) VNull Faulty.world
    = Ok (VStr "[object Object]") Faulty.world
  ∧ create Faulty.engine "a" (VObj 21%positive) VNull Faulty.world
    = Throw (Error "Expected Source id to be a instead of undefined")
            Faulty.world.
Proof. repeat split; reflexivity. Qed.

(** ** C3: a source with another id *)




(** ** C7: the lifecycle methods are bound to the source *)

(** C7, as amended.  When [create] returns, the value it returns is the
    source [s] the factory built.  A function [m] that [s] held under
    [load], [abort], [unload], [serialize] or [prepare], and that was
    not itself a bound function, has been replaced by [m] bound to [s]:
    called with any receiver whatever, it runs the code of [m] with [s]
    as receiver.  A member under any other name is as the factory left
    it. *)
Theorem create_binds_lifecycle (E : Engine) (id : string)
        (o dispatcher : Value) (w : World) (s : Value) (w1 : World)
        (r : Value) (w2 : World) (name : string) (m : Value)
        (other : string) :
  construct E id o dispatcher w = Ok s w1 →
  create E id o dispatcher w = Ok r w2 →
  name = "load" ∨ name = "abort" ∨ name = "unload" ∨ name = "serialize"
  ∨ name = "prepare" →
  get_member w1 s name = inr m →
  is_callable E m = true →
  (∀ target receiver, m ≠ VBound target receiver) →
  other ≠ "load" ∧ other ≠ "abort" ∧ other ≠ "unload" ∧ other ≠ "serialize"
  ∧ other ≠ "prepare" →
  r = s
  ∧ get_member w2 s name = inr (VBound m s)
  ∧ (∃ f, (m = VFun f ∨ ∃ l, m = VObj l ∧ object_code E l = Some f)
          ∧ ∀ this args w',
              call_value E (VBound m s) this args w'
              = run E f (ThisValue s) args w')
  ∧ get_member w2 s other = get_member w1 s other.
Proof.
  intros Hc H Hname Hm Hcall Hfree Hother.
  destruct (create_ok_inv _ _ _ _ _ _ _ H) as (l & w1' & -> & Hc' & _ & Hb).
  rewrite Hc in Hc'. injection Hc' as -> <-.
  assert (Hin : In name lifecycle) by (simpl; intuition congruence).
  destruct (bindAll_bound _ _ _ _ _ NoDup_lifecycle Hb name _ Hin Hm)
    as [Hnew _].
  split; [done|]. split.
  { rewrite Hnew. unfold bound_member.
    by destruct m; try discriminate Hcall. }
  split.
  - destruct m as [| | | | |l'|f|target receiver|]; try discriminate Hcall.
    + cbn [is_callable] in Hcall.
      destruct (object_code E l') as [f|] eqn:Hcode;
        [|by apply bool_decide_eq_true in Hcall; destruct Hcall].
      exists f. split; [right; by exists l'|].
      intros this args w'. cbn [call_value]. by rewrite Hcode.
    + exists f. split; [by left|]. reflexivity.
    + by destruct (Hfree target receiver).
  - destruct (bindAll_frame _ _ _ _ _ Hb) as (_ & _ & Hmem).
    cbn [world_after] in Hmem. apply Hmem. simpl. intuition congruence.
Qed.

Lemma create_binds_lifecycle_witness :
  VObj 2%positive = VObj 2%positive
  ∧ get_member
      (world_after
         (create Faulty.engine "a" (VObj 22%positive) VNull Faulty.world))
      (VObj 2%positive) "prepare"
    = inr (VBound (VFun (Custom 14)) (VObj 2%positive))
  ∧ (∃ f, (VFun (Custom 14) = VFun f
           ∨ ∃ l, VFun (Custom 14) = VObj l
                  ∧ object_code Faulty.engine l = Some f)
          ∧ ∀ this args w',
              call_value Faulty.engine
                         (VBound (VFun (Custom 14)) (VObj 2%positive))
                         this args w'
              = run Faulty.engine f (ThisValue (VObj 2%positive)) args w')
  ∧ get_member
      (world_after
         (create Faulty.engine "a" (VObj 22%positive) VNull Faulty.world))
      (VObj 2%positive) "minzoom"
    = get_member
        (world_after
           (construct Faulty.engine "a" (VObj 22%positive) VNull Faulty.world))
        (VObj 2%positive) "minzoom".
Proof.
  apply (create_binds_lifecycle Faulty.engine "a" (VObj 22%positive) VNull
           Faulty.world (VObj 2%positive) _ (VObj 2%positive) _
           "prepare" (VFun (Custom 14)) "minzoom");
    [reflexivity | reflexivity | tauto | reflexivity | reflexivity
    | intros target receiver; discriminate
    | repeat split; discriminate].
Defined.

(** C7 fails as stated.  The factory registered as ["prebound"] builds a
    source whose [serialize] is already bound to another object, the one
    at location 5.  [create] binds it once more, and a bound function
    keeps its first receiver: the [serialize] of the source returned
    runs with the object at location 5 as receiver, not with the
    source. *)
Lemma create_binds_lifecycle_counterexample :
  ∃ w2 m,
    create Faulty.engine "a" (VObj 18%positive) VNull Faulty.world
    = Ok (VObj 2%positive) w2
    ∧ get_member w2 (VObj 2%positive) "serialize" = inr m
    ∧ call_value Faulty.engine m ThisSourceTypes [] w2
      = run Faulty.engine (Custom 10) (ThisValue (VObj 5%positive)) [] w2
    ∧ call_value Faulty.engine m ThisSourceTypes [] w2
      ≠ run Faulty.engine (Custom 10) (ThisValue (VObj 2%positive)) [] w2.
Proof.
  eexists. eexists. split; [reflexivity|]. split; [reflexivity|].
  split; [reflexivity|]. vm_compute. discriminate.
Qed.

(** ** C8: the source returned is the factory's own *)

(** C8.  When [create] returns, what it returns is the very value the
    factory returned, a heap object; a member of that object under any
    name other than the five lifecycle names reads as it did when the
    factory returned; the rest of the heap is as the factory left it, and
    so is the registry. *)
Theorem create_frame (E : Engine) (id : string) (o dispatcher : Value)
        (w : World) (s : Value) (w1 : World) (r : Value) (w2 : World)
        (name : string) :
  construct E id o dispatcher w = Ok s w1 →
  create E id o dispatcher w = Ok r w2 →
  ¬ In name lifecycle →
  r = s
  ∧ get_member w2 s name = get_member w1 s name
  ∧ (∃ l, s = VObj l ∧ delete l (heap w2) = delete l (heap w1))
  ∧ sourceTypes w2 = sourceTypes w1.
Proof.
  intros Hc H Hname.
  destruct (create_ok_inv _ _ _ _ _ _ _ H) as (l & w1' & -> & Hc' & _ & Hb).
  rewrite Hc in Hc'. injection Hc' as -> <-.
  destruct (bindAll_frame _ _ _ _ _ Hb) as (Hreg & Hheap & Hmem).
  cbn [world_after] in *.
  split; [done|]. split; [by apply Hmem|]. split; [|done].
  exists l. split; [done|].
  apply map_eq. intros l'.
  destruct (decide (l = l')) as [<-|Hne].
  - by rewrite !lookup_delete_eq.
  - rewrite !lookup_delete_ne by done. by apply Hheap.
Qed.

Lemma create_frame_witness :
  VObj 2%positive = VObj 2%positive
  ∧ get_member
      (world_after (create Demo.engine "a" (VObj 5%positive) VNull Demo.world))
      (VObj 2%positive) "minzoom"
    = get_member (Demo.new_source (VStr "a") (VObj 5%positive) (Custom 10)
                                  Demo.world)
                 (VObj 2%positive) "minzoom"
  ∧ (∃ l, VObj 2%positive = VObj l
       ∧ delete l (heap (world_after
                           (create Demo.engine "a" (VObj 5%positive) VNull
                                   Demo.world)))
         = delete l (heap (Demo.new_source (VStr "a") (VObj 5%positive)
                                           (Custom 10) Demo.world)))
  ∧ sourceTypes
      (world_after (create Demo.engine "a" (VObj 5%positive) VNull Demo.world))
    = sourceTypes (Demo.new_source (VStr "a") (VObj 5%positive) (Custom 10)
                                   Demo.world).
Proof.
  apply (create_frame Demo.engine "a" (VObj 5%positive) VNull Demo.world
           (VObj 2%positive) _ (VObj 2%positive) _ "minzoom");
    [reflexivity | reflexivity | simpl; intuition discriminate].
Defined.

(** ** Invariants of the registry *)

Lemma setType_ok_inv (E : Engine) n v w r w' :
  setType E n v w = Ok r w' →
  r = VUndefined ∧ registry_put E w n v = Ok tt w'.
Proof.
  unfold setType. destruct (registry_put E w n v) as [[] w1|e w1]; simpl;
    [|discriminate].
  by intros [= <- <-].
Qed.

(** In a reachable world the registry still inherits from
    [Object.prototype], owns nothing but functions, and owns the five
    built-in names. *)
Lemma reachable_inv (E : Engine) w :
  reachable E w →
  proto (sourceTypes w) = VObjectPrototype
  ∧ (∀ n v, own (sourceTypes w) !! n = Some v → ∃ f, v = VFun f)
  ∧ (∀ n, In n builtin_names → is_Some (own (sourceTypes w) !! n)).
Proof.
  induction 1 as [h | w w' n f _ IH Hn Hset | w h _ IH].
  - split; [done|]. split.
    + intros n v Hv. destruct (classic_builtin n) as [Hin|Hout].
      * destruct (initial_own_builtin n Hin) as [f Hf].
        cbn [sourceTypes] in Hv. rewrite Hf in Hv. injection Hv as <-. eauto.
      * cbn [sourceTypes] in Hv. by rewrite (initial_own_other n Hout) in Hv.
    + intros n Hin. destruct (initial_own_builtin n Hin) as [f Hf].
      cbn [sourceTypes]. by rewrite Hf.
  - destruct IH as (Hp & Hfun & Hbuiltin).
    apply setType_ok_inv in Hset as [_ Hput].
    rewrite (registry_put_pristine_ne E w n (VFun f) Hp Hn) in Hput.
    injection Hput as <-. simpl.
    split; [done|]. split.
    + intros m v. destruct (decide (n = m)) as [->|Hne].
      * rewrite lookup_insert_eq. intros [= <-]. eauto.
      * rewrite lookup_insert_ne by done. apply Hfun.
    + intros m Hin. destruct (decide (n = m)) as [->|Hne].
      * rewrite lookup_insert_eq. by eexists.
      * rewrite lookup_insert_ne by done. by apply Hbuiltin.
  - exact IH.
Qed.

(** The string conversion of a value that is not an object runs no
    code. *)
Lemma to_string_primitive (E : Engine) v w :
  is_object v = false → ∃ text, to_string E v w = Ok text w.
Proof. destruct v as [| |[]| | | | | |]; simpl; try discriminate; eauto. Qed.

(** ** C9: [create] leaves the registry alone *)

(** C9, as amended.  Take a world reached from the initial one by
    registering functions under names other than [__proto__].  If the
    code that [create] runs there, the factory and the string conversion
    of an object, leaves [sourceTypes] as it found it, then so does the
    whole of [create], whether it returns or throws: [getType(n)]
    answers the same after the call as before it, for every name
    [n]. *)
Theorem create_preserves_registry (E : Engine) (id : string)
        (o dispatcher : Value) (w : World) (n : string) :
  reachable E w →
  sourceTypes (world_after (construct E id o dispatcher w)) = sourceTypes w →
  (∀ v w1, sourceTypes (world_after (object_to_string E v w1))
           = sourceTypes w1) →
  ∃ v, getType E n w = Ok v w
       ∧ getType E n (world_after (create E id o dispatcher w))
         = Ok v (world_after (create E id o dispatcher w)).
Proof.
  intros Hw Hfac Hconv.
  destruct (reachable_inv E w Hw) as (Hp & _ & _).
  assert (Hreg : sourceTypes (world_after (create E id o dispatcher w))
                 = sourceTypes w).
  { destruct (construct E id o dispatcher w) as [s w1|e w1] eqn:Hc.
    - rewrite (create_construct_ok _ _ _ _ _ _ _ Hc).
      simpl in Hfac.
      destruct (get_member w1 s "id") as [e|sid] eqn:Hid; [done|].
      destruct (strict_neq_string sid id) eqn:Hneq.
      + destruct (is_object sid) eqn:Hobj.
        * assert (Hts : to_string E sid w1 = object_to_string E sid w1)
            by (by destruct sid).
          rewrite Hts. specialize (Hconv sid w1).
          destruct (object_to_string E sid w1); simpl in *; congruence.
        * destruct (to_string_primitive E sid w1 Hobj) as [text ->]. done.
      + apply strict_neq_string_false in Hneq. subst sid.
        destruct (get_member_string_obj _ _ _ _ Hid) as [l ->].
        destruct (bindAll_frame E lifecycle l w1 _ eq_refl) as (Hb & _).
        destruct (bindAll E lifecycle (VObj l) w1); simpl in *; congruence.
    - by rewrite (create_construct_throw _ _ _ _ _ _ _ Hc). }
  unfold getType. rewrite !registry_get_pristine by congruence.
  eexists. split; [reflexivity|]. by rewrite Hreg.
Qed.

Lemma create_preserves_registry_witness :
  ∃ v, getType Demo.engine "custom"
         (mkWorld
            (sourceTypes
               (world_after
                  (setType Demo.engine "custom" (VFun (Custom 0))
                           initial_world)))
            (heap Demo.world))
       = Ok v
            (mkWorld
               (sourceTypes
                  (world_after
                     (setType Demo.engine "custom" (VFun (Custom 0))
                              initial_world)))
               (heap Demo.world))
       ∧ getType Demo.engine "custom"
           (world_after
              (create Demo.engine "a" (VObj 5%positive) VNull
                 (mkWorld
                    (sourceTypes
                       (world_after
                          (setType Demo.engine "custom" (VFun (Custom 0))
                                   initial_world)))
                    (heap Demo.world))))
         = Ok v
              (world_after
                 (create Demo.engine "a" (VObj 5%positive) VNull
                    (mkWorld
                       (sourceTypes
                          (world_after
                             (setType Demo.engine "custom" (VFun (Custom 0))
                                      initial_world)))
                       (heap Demo.world)))).
Proof.
  apply (create_preserves_registry Demo.engine "a" (VObj 5%positive) VNull).
  - apply reachable_heap.
    apply (reachable_setType Demo.engine initial_world _ "custom" (Custom 0));
      [apply (reachable_initial Demo.engine ∅) | discriminate | reflexivity].
  - reflexivity.
  - intros v w1. by destruct v.
Defined.

(** C9 fails as stated, in two ways.  The factory registered as
    ["writer"] calls no [setType]; it writes [this.image], its receiver
    being [sourceTypes], and [getType('image')] is the built-in factory
    before the call of [create] and a string after it.  And once
    [sourceTypes] inherits from an object that a factory hands out as
    its source, the binding of line 37 writes to that object, so that
    [getType('serialize')], which reads through it, changes though the
    factory wrote nothing. *)
Lemma create_preserves_registry_counterexample :
  (getType Faulty.engine "image" Faulty.world
   = Ok (VFun ImageSource_create) Faulty.world
   ∧ ∃ s w1, create Faulty.engine "a" (VObj 15%positive) VNull Faulty.world
             = Ok s w1
             ∧ getType Faulty.engine "image" w1 = Ok (VStr "gone") w1)
  ∧ (∃ w0 s w1,
       setType Faulty.engine "__proto__" (VObj 41%positive) Faulty.world
       = Ok VUndefined w0
       ∧ getType Faulty.engine "serialize" w0 = Ok (VFun (Custom 10)) w0
       ∧ sourceTypes
           (world_after
              (construct Faulty.engine "a" (VObj 16%positive) VNull w0))
         = sourceTypes w0
       ∧ create Faulty.engine "a" (VObj 16%positive) VNull w0 = Ok s w1
       ∧ getType Faulty.engine "serialize" w1
         = Ok (VBound (VFun (Custom 10)) (VObj 41%positive)) w1).
Proof.
  split.
  - split; [reflexivity|]. eexists. eexists. split; reflexivity.
  - eexists. eexists. eexists. repeat split; reflexivity.
Qed.

(** * Further properties of [create] *)

(** ** What [create] can return *)



(** ** Options that cannot be read *)

(** X2.  With [undefined] or [null] for options, [create] throws at
    [source.type], before the registry is consulted: the world is
    unchanged and no function is run, whatever is registered. *)
Theorem create_nullish_options (E : Engine) (id : string)
        (o dispatcher : Value) (w : World) :
  o = VUndefined ∨ o = VNull →
  create E id o dispatcher w = Throw (TypeError MemberOfNullish) w.
Proof. intros [-> | ->]; reflexivity. Qed.

Lemma create_nullish_options_witness :
  create Demo.engine "a" VUndefined VNull Demo.world
  = Throw (TypeError MemberOfNullish) Demo.world.
Proof. apply (create_nullish_options Demo.engine). by left. Defined.

(** X3.  Options without a [type] are looked up under the name
    ["undefined"], the key that [sourceTypes[undefined]] denotes: a
    factory registered under that name is the one called. *)
Theorem create_missing_type (E : Engine) (id : string)
        (o dispatcher : Value) (w : World) (f : Fn) (w0 : World) :
  get_member w o "type" = inr VUndefined →
  getType E "undefined" w = Ok (VFun f) w0 →
  construct E id o dispatcher w
  = run E f ThisSourceTypes [VStr id; o; dispatcher] w0.
Proof.
  intros Htype Hreg. unfold construct. rewrite Htype. simpl.
  unfold getType in Hreg. by rewrite Hreg.
Qed.

Lemma create_missing_type_witness :
  construct Faulty.engine "a" (VObj 13%positive) VNull Faulty.world
  = run Faulty.engine (Custom 0) ThisSourceTypes
        [VStr "a"; VObj 13%positive; VNull] Faulty.world.
Proof.
  apply (create_missing_type Faulty.engine "a" (VObj 13%positive) VNull
                             Faulty.world (Custom 0)); reflexivity.
Defined.

(** ** A registration that is not a function *)

(** X4.  When what is registered under the type of the options is not a
    function, a string say, or the [Object.prototype] that
    [sourceTypes['__proto__']] reads, [create] throws at the call and
    leaves the world as the look-up left it. *)
Theorem create_not_callable (E : Engine) (id : string)
        (o dispatcher : Value) (w : World) (t : string) (v : Value)
        (w0 : World) :
  get_member w o "type" = inr (VStr t) →
  getType E t w = Ok v w0 →
  is_callable E v = false →
  create E id o dispatcher w = Throw (TypeError NotAFunction) w0.
Proof.
  intros Htype Hreg Hv.
  apply create_construct_throw.
  rewrite (construct_string_type _ _ _ _ _ _ Htype), Hreg.
  cbn [bind_result].
  destruct v as [| | | | |l| | |]; try done.
  simpl in *. destruct (object_code E l); [|done].
  by rewrite bool_decide_eq_false in Hv; destruct Hv.
Qed.

Lemma create_not_callable_witness :
  create Faulty.engine "a" (VObj 14%positive) VNull Faulty.world
  = Throw (TypeError NotAFunction) Faulty.world.
Proof.
  apply (create_not_callable Faulty.engine "a" (VObj 14%positive) VNull
           Faulty.world "text" (VStr "not a factory")); reflexivity.
Defined.

(** ** Factories that do not keep to the interface *)

(** X5.  [create] has no handler: what the factory throws is what
    [create] throws, in the world the factory left. *)
Theorem create_factory_throws (E : Engine) (id : string)
        (o dispatcher : Value) (w : World) (t : string) (factory : Value)
        (w0 : World) (e : Exn) (w1 : World) :
  get_member w o "type" = inr (VStr t) →
  getType E t w = Ok factory w0 →
  call_value E factory ThisSourceTypes [VStr id; o; dispatcher] w0
  = Throw e w1 →
  create E id o dispatcher w = Throw e w1.
Proof.
  intros Htype Hreg Hcall.
  apply create_construct_throw.
  by rewrite (construct_string_type _ _ _ _ _ _ Htype), Hreg.
Qed.

Lemma create_factory_throws_witness :
  create Faulty.engine "a" (VObj 10%positive) VNull Faulty.world
  = Throw (Thrown (VStr "no network")) Faulty.world.
Proof.
  apply (create_factory_throws Faulty.engine "a" (VObj 10%positive) VNull
           Faulty.world "throws" (VFun (Custom 20)) Faulty.world);
    reflexivity.
Defined.

(** X6.  A factory that returns [undefined] or [null] makes [create]
    throw a [TypeError] at [source.id], not the error of line 34; the
    world is the one the factory left. *)
Theorem create_nullish_source (E : Engine) (id : string)
        (o dispatcher : Value) (w : World) (s : Value) (w1 : World) :
  construct E id o dispatcher w = Ok s w1 →
  s = VUndefined ∨ s = VNull →
  create E id o dispatcher w = Throw (TypeError MemberOfNullish) w1.
Proof.
  intros Hc Hs. rewrite (create_construct_ok _ _ _ _ _ _ _ Hc).
  by destruct Hs as [-> | ->].
Qed.

Lemma create_nullish_source_witness :
  create Faulty.engine "a" (VObj 11%positive) VNull Faulty.world
  = Throw (TypeError MemberOfNullish) Faulty.world.
Proof.
  apply (create_nullish_source Faulty.engine "a" (VObj 11%positive) VNull
           Faulty.world VUndefined); [reflexivity | by left].
Defined.

(** X7.  A factory that returns a boolean, a number or a string makes
    [create] throw the error of line 34, and the id it reports as
    returned is [undefined]. *)
Theorem create_primitive_source (E : Engine) (id : string)
        (o dispatcher : Value) (w : World) (s : Value) (w1 : World) :
  construct E id o dispatcher w = Ok s w1 →
  (∃ b, s = VBool b) ∨ (∃ z, s = VNum z) ∨ (∃ x, s = VStr x) →
  create E id o dispatcher w
  = Throw (Error ("Expected Source id to be " ++ id
                  ++ " instead of undefined")) w1.
Proof.
  intros Hc Hs. rewrite (create_construct_ok _ _ _ _ _ _ _ Hc).
  by destruct Hs as [[b ->] | [[z ->] | [x ->]]].
Qed.

Lemma create_primitive_source_witness :
  create Faulty.engine "a" (VObj 12%positive) VNull Faulty.world
  = Throw (Error "Expected Source id to be a instead of undefined")
          Faulty.world.
Proof.
  apply (create_primitive_source Faulty.engine "a" (VObj 12%positive) VNull
           Faulty.world (VNum 7)); [reflexivity | right; left; by eexists].
Defined.

(** * Further properties of the registry *)




(** ** Registering and calling *)



(** ** How registrations compose *)







(** ** What [setType] never does *)



(** ** Invariants over the reachable worlds *)

(** X15.  The built-in types cannot be lost: in every world reached from
    the initial one by registering functions under names other than
    [__proto__], [getType] returns a function for each of [vector],
    [raster], [geojson], [video] and [image]. *)
Theorem reachable_builtin_registered (E : Engine) (w : World) (n : string) :
  reachable E w →
  In n builtin_names →
  ∃ f, getType E n w = Ok (VFun f) w.
Proof.
  intros Hw Hin.
  destruct (reachable_inv E w Hw) as (_ & Hfun & Hbuiltin).
  destruct (Hbuiltin n Hin) as [v Hv].
  destruct (Hfun n v Hv) as [f ->].
  exists f. by apply registry_get_own.
Qed.

Lemma reachable_builtin_registered_witness :
  ∃ f, getType Demo.engine "vector"
         (world_after
            (setType Demo.engine "vector" (VFun (Custom 0)) initial_world))
       = Ok (VFun f)
            (world_after
               (setType Demo.engine "vector" (VFun (Custom 0)) initial_world)).
Proof.
  apply (reachable_builtin_registered Demo.engine).
  - apply (reachable_setType Demo.engine initial_world _ "vector" (Custom 0));
      [apply (reachable_initial Demo.engine ∅) | discriminate | reflexivity].
  - simpl. tauto.
Defined.

(** X16.  In every such world a registration goes through: [setType(n,
    f)] returns for every name [n] and function [f], and [getType(n)]
    then returns [f]. *)
Theorem reachable_setType_returns (E : Engine) (w : World) (n : string)
        (f : Fn) :
  reachable E w →
  ∃ w', setType E n (VFun f) w = Ok VUndefined w'
        ∧ getType E n w' = Ok (VFun f) w'.
Proof.
  intros Hw.
  destruct (reachable_inv E w Hw) as (Hp & _ & _).
  destruct (registry_put_pristine E w n f Hp) as (w' & Hput & Hget & _).
  exists w'. unfold setType, getType. rewrite Hput. by split.
Qed.

Lemma reachable_setType_returns_witness :
  ∃ w', setType Demo.engine "toString" (VFun (Custom 1))
          (world_after
             (setType Demo.engine "custom" (VFun (Custom 0)) initial_world))
        = Ok VUndefined w'
        ∧ getType Demo.engine "toString" w' = Ok (VFun (Custom 1)) w'.
Proof.
  apply (reachable_setType_returns Demo.engine).
  apply (reachable_setType Demo.engine initial_world _ "custom" (Custom 0));
    [apply (reachable_initial Demo.engine ∅) | discriminate | reflexivity].
Defined.

(** X17.  In every such world [getType(n)] does not throw, and it
    returns [undefined] exactly for the names that are neither
    registered nor inherited from [Object.prototype]. *)
Theorem reachable_getType_undefined (E : Engine) (w : World) (n : string) :
  reachable E w →
  ∃ v, getType E n w = Ok v w
       ∧ (v = VUndefined
          ↔ own (sourceTypes w) !! n = None
            ∧ ¬ In n ObjectPrototype_members).
Proof.
  intros Hw.
  destruct (reachable_inv E w Hw) as (Hp & Hfun & _).
  unfold getType. rewrite registry_get_pristine by done.
  eexists. split; [reflexivity|].
  destruct (own (sourceTypes w) !! n) as [v|] eqn:Hown.
  - destruct (Hfun n v Hown) as [f ->]. split; [done|]. by intros [? _].
  - change (default (ObjectPrototype_member n) None)
      with (ObjectPrototype_member n).
    rewrite ObjectPrototype_member_undefined. tauto.
Qed.

Lemma reachable_getType_undefined_witness :
  ∃ v, getType Demo.engine "heatmap"
         (world_after
            (setType Demo.engine "custom" (VFun (Custom 0)) initial_world))
       = Ok v
            (world_after
               (setType Demo.engine "custom" (VFun (Custom 0)) initial_world))
       ∧ (v = VUndefined
          ↔ own (sourceTypes
                   (world_after
                      (setType Demo.engine "custom" (VFun (Custom 0))
                               initial_world)))
              !! "heatmap" = None
            ∧ ¬ In "heatmap" ObjectPrototype_members).
Proof.
  apply (reachable_getType_undefined Demo.engine).
  apply (reachable_setType Demo.engine initial_world _ "custom" (Custom 0));
    [apply (reachable_initial Demo.engine ∅) | discriminate | reflexivity].
Defined.

(** * C6: [serialize] and [create] *)

(** ** The modelled source types *)

Section PlainSources.
Import Plain.















End PlainSources.

(** ** C6: the round trip *)


